(** * simple_mcp_server: the two tools of the test server and their host

    The source file [test-servers/simple_mcp_server.py] creates one server
    object, [mcp], registers two functions on it with the [tool] decorator
    and starts it.  The two functions are embedded from their bodies; what
    the server object does with them (routing, argument checking) belongs
    to the imported framework and is modelled from the specification. *)

From Stdlib Require Import ZArith String List Lia.
From stdpp Require Import gmap strings list fin_maps.

Local Open Scope string_scope.

(** ** Python expressions used by the source *)

Module Py.

(** A Python [str] is a [string], one element per character. *)

(** The pieces of a formatted string literal: literal text, or a
    replacement field [{e}] whose expression evaluated to a [str] and
    which carries no conversion and no format specification. *)
Inductive fpart : Type :=
| Lit (text : string)
| Field (val : string).

(** [format(s, "")] on a [str] is the string itself. *)
Definition format_str (s : string) : string := s.

Definition render (p : fpart) : string :=
  match p with
  | Lit text => text
  | Field val => format_str val
  end.

(** An f-string evaluates its pieces left to right and joins them. *)
Fixpoint fstring (parts : list fpart) : string :=
  match parts with
  | [] => ""
  | p :: rest => render p +:+ fstring rest
  end.

(** The slice [s[n:]] for [0 <= n]. *)
Fixpoint slice_from (n : nat) (s : string) : string :=
  match n, s with
  | O, _ => s
  | S _, EmptyString => EmptyString
  | S k, String _ rest => slice_from k rest
  end.

End Py.

(** ** The two tool functions *)

(** [def echo(message: str) -> str: return f"Echo: {message}"] *)
Definition echo (message : string) : string :=
  Py.fstring [Py.Lit "Echo: "; Py.Field message].

(** [def add(a: int, b: int) -> int: return a + b]; Python's [int] has no
    bound, so it is [Z]. *)
Definition add (a b : Z) : Z := (a + b)%Z.

(** Reduction of an integer to a [w]-bit machine word, unsigned and two's
    complement: what [add] would return if it computed at a word width.
    Used only to state that it does not. *)
Definition wrap (w : positive) (x : Z) : Z := (x mod 2 ^ Z.pos w)%Z.

Definition wrap_signed (w : positive) (x : Z) : Z :=
  ((x + 2 ^ (Z.pos w - 1)) mod 2 ^ Z.pos w - 2 ^ (Z.pos w - 1))%Z.

(** ** Values, signatures and tools *)

(** Argument and result payloads as they travel in a request. *)
#[warnings="-register-all"]
Inductive value : Type :=
| VNull
| VBool (b : bool)
| VInt (n : Z)
| VStr (s : string)
| VList (items : list value).

(** The annotations the source puts on parameters and results. *)
Inductive ty : Type :=
| TStr
| TInt.

Definition ty_denote (t : ty) : Type :=
  match t with
  | TStr => string
  | TInt => Z
  end.

(** The type of a Python function with the given annotated parameters. *)
Fixpoint fn_type (params : list (string * ty)) (ret : ty) : Type :=
  match params with
  | [] => ty_denote ret
  | (_, t) :: rest => ty_denote t -> fn_type rest ret
  end.

(** A registered operation: the function and its argument schema. *)
Record tool : Type := Tool {
  params : list (string * ty);
  ret : ty;
  fn : fn_type params ret
}.

Definition echo_tool : tool :=
  {| params := [("message", TStr)]; ret := TStr; fn := echo |}.

Definition add_tool : tool :=
  {| params := [("a", TInt); ("b", TInt)]; ret := TInt; fn := add |}.

(** ** The tool host *)

Inductive response : Type :=
| Success (payload : value)
| ClientError (reason : string).

Record request : Type := Request {
  op : string;
  args : gmap string value
}.

(** Modelled from the spec: the server object of the imported framework
    ([FastMCP], not part of the source): a name and the operation registry,
    a mapping from operation name to tool, empty when the object is
    created. *)
Record FastMCP : Type := Host {
  server_name : string;
  tools : gmap string tool
}.

(** Modelled from the spec: the constructor call [FastMCP(name)] of the
    imported framework; the registry starts empty. *)
Definition new_server (name : string) : FastMCP :=
  {| server_name := name; tools := ∅ |}.

(** Modelled from the spec: [@mcp.tool()] of the imported framework enters
    the decorated function in the registry under the function's name. *)
Definition register_tool (name : string) (t : tool) (h : FastMCP) : FastMCP :=
  {| server_name := server_name h; tools := <[name := t]> (tools h) |}.

(** [mcp = FastMCP("TestServer")], then the two decorated definitions in
    source order. *)
Definition mcp : FastMCP :=
  register_tool "add" add_tool
    (register_tool "echo" echo_tool (new_server "TestServer")).

(** Modelled from the spec: the framework's check of one argument against
    its annotation; a value of another kind is a wrong argument type.  The
    rule is applied as the spec words it, with no conversion between
    kinds. *)
Definition check (t : ty) (v : value) : option (ty_denote t) :=
  match t return option (ty_denote t) with
  | TStr => match v with VStr s => Some s | _ => None end
  | TInt => match v with VInt n => Some n | _ => None end
  end.

(** A typed return value as a payload. *)
Definition inject (t : ty) : ty_denote t -> value :=
  match t return ty_denote t -> value with
  | TStr => VStr
  | TInt => VInt
  end.

(** Modelled from the spec: the framework binds the named arguments of a
    request to the parameters in order; a missing required argument or a
    wrong argument type rejects the request with a reason, otherwise the
    function's return value is the success payload.  Keys that name no
    parameter are not looked at. *)
Fixpoint apply_args (ps : list (string * ty)) (r : ty)
    : fn_type ps r -> gmap string value -> response :=
  match ps return fn_type ps r -> gmap string value -> response with
  | [] => fun f _ => Success (inject r f)
  | (k, t) :: rest => fun f given =>
      match given !! k with
      | None => ClientError ("Missing required argument: " +:+ k)
      | Some v =>
          match check t v with
          | None => ClientError ("Wrong type for argument: " +:+ k)
          | Some x => apply_args rest r (f x) given
          end
      end
  end.

(** Modelled from the spec: the framework's dispatch of one request
    (absent from the source).  An operation name outside the registry is a
    client error; handling a request returns the host as it was. *)
Definition call_tool (h : FastMCP) (rq : request) : response * FastMCP :=
  match tools h !! op rq with
  | None => (ClientError ("Unknown tool: " +:+ op rq), h)
  | Some t => (apply_args (params t) (ret t) (fn t) (args rq), h)
  end.

(** Requests handled one after the other, each on the host the previous
    one left. *)
Fixpoint serve (h : FastMCP) (rqs : list request) : list response * FastMCP :=
  match rqs with
  | [] => ([], h)
  | rq :: rest =>
      let '(resp, h1) := call_tool h rq in
      let '(resps, h2) := serve h1 rest in
      (resp :: resps, h2)
  end.

(** The hosts the process can be in: the one built at start, and whatever
    handling one more request leaves. *)
Inductive reachable : FastMCP -> Prop :=
| reach_start : reachable mcp
| reach_step h rq : reachable h -> reachable (call_tool h rq).2.

Definition echo_call (m : string) : request :=
  {| op := "echo"; args := {[ "message" := VStr m ]} |}.

Definition add_call (a b : Z) : request :=
  {| op := "add"; args := <["a" := VInt a]> {[ "b" := VInt b ]} |}.

Definition is_client_error (r : response) : Prop :=
  exists reason, r = ClientError reason.

(** The answers of the host at start to an [echo] and to an [add] request,
    case by case on the arguments given; [call_echo] and [call_add] below
    show that [call_tool] computes them. *)
Definition echo_answer (given : gmap string value) : response :=
  match given !! "message" with
  | None => ClientError "Missing required argument: message"
  | Some (VStr m) => Success (VStr (echo m))
  | Some _ => ClientError "Wrong type for argument: message"
  end.

Definition add_answer (given : gmap string value) : response :=
  match given !! "a" with
  | None => ClientError "Missing required argument: a"
  | Some (VInt a) =>
      match given !! "b" with
      | None => ClientError "Missing required argument: b"
      | Some (VInt b) => Success (VInt (add a b))
      | Some _ => ClientError "Wrong type for argument: b"
      end
  | Some _ => ClientError "Wrong type for argument: a"
  end.

(** ** The body of [add] on unchecked operands

    Python does not enforce the annotations [a: int, b: int]: called with
    other objects, the body [a + b] runs the binary [+] of the operands'
    types.  The operands considered are [None], [bool], [int], [str] and
    [list] objects. *)

Module Untyped.

Inductive outcome : Type :=
| Returned (v : value)
| TypeError.

(** [bool] is a subclass of [int]: [True] counts as [1], [False] as [0]. *)
Definition as_int (v : value) : option Z :=
  match v with
  | VInt n => Some n
  | VBool b => Some (if b then 1 else 0)%Z
  | _ => None
  end.

(** Binary [+]: integer addition on [int] and [bool] operands,
    concatenation on two [str] or two [list] operands, [TypeError] on every
    other pair. *)
Definition py_add (x y : value) : outcome :=
  match x, y with
  | VStr s, VStr t => Returned (VStr (s +:+ t))
  | VList l, VList k => Returned (VList (l ++ k))
  | _, _ =>
      match as_int x, as_int y with
      | Some a, Some b => Returned (VInt (a + b))
      | _, _ => TypeError
      end
  end.

(** [return a + b] *)
Definition add (a b : value) : outcome := py_add a b.

End Untyped.

(** The sum of a list of integers by repeated calls of [add]. *)
Definition add_all (xs : list Z) : Z := foldr add 0%Z xs.

(** ** Facts about the Python expressions *)

Lemma append_cons (c : Ascii.ascii) (s t : string) :
  String c s +:+ t = String c (s +:+ t).
Proof. reflexivity. Qed.

Lemma append_empty_r (s : string) : s +:+ "" = s.
Proof.
  induction s as [|c s IH]; [reflexivity|].
  rewrite append_cons. f_equal. exact IH.
Qed.

Lemma fstring_lit_field (text val : string) :
  Py.fstring [Py.Lit text; Py.Field val] = text +:+ val.
Proof.
  unfold Py.fstring, Py.render, Py.format_str.
  now rewrite append_empty_r.
Qed.

Lemma slice_from_app (pre s : string) :
  Py.slice_from (String.length pre) (pre +:+ s) = s.
Proof.
  induction pre as [|c pre IH]; [now destruct s|].
  rewrite append_cons. exact IH.
Qed.

Lemma echo_unfold (m : string) : echo m = "Echo: " +:+ m.
Proof. unfold echo. apply fstring_lit_field. Qed.

(** ** The tool functions *)

(** C1: for every string [m], [echo] returns exactly ["Echo: "] followed by
    [m]; on ["hello"] it returns ["Echo: hello"]. *)
Theorem echo_returns_prefixed (m : string) :
  echo m = "Echo: " +:+ m /\ echo "hello" = "Echo: hello".
Proof. split; [apply echo_unfold | reflexivity]. Qed.

(** C2: for all integers [a] and [b], [add] returns exactly [a + b]; on
    [2] and [3] it returns [5], on [-1] and [1] it returns [0]. *)
Theorem add_returns_sum (a b : Z) :
  add a b = (a + b)%Z /\ add 2 3 = 5%Z /\ add (-1) 1 = 0%Z.
Proof. unfold add. repeat split. Qed.

(** ** The registry built at start *)

Lemma mcp_tools :
  tools mcp = <["add" := add_tool]> (<["echo" := echo_tool]> ∅).
Proof. reflexivity. Qed.

Lemma mcp_lookup_echo : tools mcp !! "echo" = Some echo_tool.
Proof. rewrite mcp_tools. by simplify_map_eq. Qed.

Lemma mcp_lookup_add : tools mcp !! "add" = Some add_tool.
Proof. rewrite mcp_tools. by simplify_map_eq. Qed.

Lemma mcp_lookup_other (name : string) :
  name ≠ "echo" -> name ≠ "add" -> tools mcp !! name = None.
Proof. intros He Ha. rewrite mcp_tools. by simplify_map_eq. Qed.

Lemma mcp_dom : dom (tools mcp) = ({[ "echo"; "add" ]} : gset string).
Proof. rewrite mcp_tools, !dom_insert_L, dom_empty_L. set_solver. Qed.

(** ** Handling leaves the host as it was *)

Lemma call_tool_host (h : FastMCP) (rq : request) : (call_tool h rq).2 = h.
Proof. unfold call_tool. by destruct (tools h !! op rq). Qed.

Lemma serve_host (h : FastMCP) (rqs : list request) : (serve h rqs).2 = h.
Proof.
  revert h. induction rqs as [|rq rest IH]; intros h; [reflexivity|].
  simpl. pose proof (call_tool_host h rq) as Hc.
  destruct (call_tool h rq) as [resp h1]. simpl in Hc. subst h1.
  specialize (IH h). by destruct (serve h rest) as [resps h2].
Qed.

Lemma reachable_start (h : FastMCP) : reachable h -> h = mcp.
Proof.
  induction 1 as [|h rq _ IH]; [reflexivity|].
  by rewrite call_tool_host.
Qed.

(** ** What the two operations answer *)

Lemma call_echo (given : gmap string value) :
  (call_tool mcp {| op := "echo"; args := given |}).1 = echo_answer given.
Proof.
  unfold call_tool, echo_answer. cbn [op args]. rewrite mcp_lookup_echo.
  cbn. destruct (given !! "message") as [[]|]; reflexivity.
Qed.

Lemma call_add (given : gmap string value) :
  (call_tool mcp {| op := "add"; args := given |}).1 = add_answer given.
Proof.
  unfold call_tool, add_answer. cbn [op args]. rewrite mcp_lookup_add.
  cbn. destruct (given !! "a") as [[]|]; try reflexivity.
  destruct (given !! "b") as [[]|]; reflexivity.
Qed.

Lemma call_echo_ok (m : string) :
  (call_tool mcp (echo_call m)).1 = Success (VStr (echo m)).
Proof.
  unfold echo_call. rewrite call_echo. unfold echo_answer.
  by rewrite lookup_singleton_eq.
Qed.

Lemma call_add_ok (a b : Z) :
  (call_tool mcp (add_call a b)).1 = Success (VInt (add a b)).
Proof.
  unfold add_call. rewrite call_add. unfold add_answer.
  by simplify_map_eq.
Qed.

(** ** The host's contract *)

(** C3: a request whose operation name is neither [echo] nor [add] is
    answered with a client error (the dispatch is total, it always returns a
    response); the host it leaves is the host at start, and valid [echo] and
    [add] calls on it still succeed. *)
Theorem unknown_operation_rejected (name : string) (given : gmap string value) :
  name ≠ "echo" -> name ≠ "add" ->
  let out := call_tool mcp {| op := name; args := given |} in
  is_client_error out.1 /\ out.2 = mcp /\
  (forall m, (call_tool out.2 (echo_call m)).1 = Success (VStr (echo m))) /\
  (forall a b, (call_tool out.2 (add_call a b)).1 = Success (VInt (add a b))).
Proof.
  intros He Ha out. subst out. rewrite call_tool_host.
  split; [|split; [reflexivity|split; [apply call_echo_ok|apply call_add_ok]]].
  unfold call_tool. cbn [op args]. rewrite (mcp_lookup_other name He Ha).
  by eexists.
Qed.

Lemma unknown_operation_rejected_witness :
  "multiply" ≠ "echo" /\ "multiply" ≠ "add" /\
  let out := call_tool mcp {| op := "multiply"; args := ∅ |} in
  is_client_error out.1 /\ out.2 = mcp /\
  (forall m, (call_tool out.2 (echo_call m)).1 = Success (VStr (echo m))) /\
  (forall a b, (call_tool out.2 (add_call a b)).1 = Success (VInt (add a b))).
Proof.
  split; [discriminate|split; [discriminate|]].
  apply (unknown_operation_rejected "multiply" ∅); discriminate.
Defined.



(** C6: the registry of the host built at start holds exactly [echo] and
    [add], and every host reached by handling requests, one at a time or a
    whole sequence, has that same registry. *)
Theorem registry_fixed (h : FastMCP) :
  reachable h ->
  tools h = tools mcp /\
  dom (tools h) = ({[ "echo"; "add" ]} : gset string) /\
  tools h !! "echo" = Some echo_tool /\
  tools h !! "add" = Some add_tool /\
  (forall rq, tools (call_tool h rq).2 = tools mcp) /\
  (forall rqs, tools (serve h rqs).2 = tools mcp).
Proof.
  intros Hr. apply reachable_start in Hr. subst h.
  split; [reflexivity|]. split; [apply mcp_dom|].
  split; [apply mcp_lookup_echo|]. split; [apply mcp_lookup_add|].
  split; [intros rq; by rewrite call_tool_host|].
  intros rqs. by rewrite serve_host.
Qed.

Lemma registry_fixed_witness :
  let h := (call_tool mcp (echo_call "hi")).2 in
  reachable h /\
  tools h = tools mcp /\
  dom (tools h) = ({[ "echo"; "add" ]} : gset string) /\
  tools h !! "echo" = Some echo_tool /\
  tools h !! "add" = Some add_tool /\
  (forall rq, tools (call_tool h rq).2 = tools mcp) /\
  (forall rqs, tools (serve h rqs).2 = tools mcp).
Proof.
  assert (reachable (call_tool mcp (echo_call "hi")).2) as Hr.
  { apply reach_step. apply reach_start. }
  split; [exact Hr|].
  apply (registry_fixed (call_tool mcp (echo_call "hi")).2 Hr).
Defined.

(** ** Algebra of the two functions *)

(** C8: dropping the first six characters of [echo m] gives [m] back, and
    so [echo] is injective. *)
Theorem echo_strip_inverse :
  (forall m, Py.slice_from 6 (echo m) = m) /\
  (forall m1 m2, echo m1 = echo m2 -> m1 = m2).
Proof.
  assert (forall m, Py.slice_from 6 (echo m) = m) as Hinv.
  { intros m. rewrite echo_unfold.
    exact (slice_from_app "Echo: " m). }
  split; [exact Hinv|].
  intros m1 m2 Heq. rewrite <- (Hinv m1), <- (Hinv m2). by rewrite Heq.
Qed.

(** C9: [add] is commutative and [0] is its right identity. *)
Theorem add_comm_identity (a b : Z) : add a b = add b a /\ add a 0 = a.
Proof. unfold add. lia. Qed.

(** C10: [add] is the mathematical sum on all of [Z]: either argument is
    recovered by subtracting the other, and at every word width [w] the
    result coincides with the unsigned (resp. two's complement) [w]-bit sum
    only when the true sum is in that range. *)
Theorem add_exact_unbounded (a b : Z) (w : positive) :
  add a b = (a + b)%Z /\
  (add a b - b = a)%Z /\ (add a b - a = b)%Z /\
  (add a b = wrap w (a + b) <-> (0 <= a + b < 2 ^ Z.pos w)%Z) /\
  (add a b = wrap_signed w (a + b) <->
   (- 2 ^ (Z.pos w - 1) <= a + b < 2 ^ (Z.pos w - 1))%Z).
Proof.
  unfold add, wrap, wrap_signed.
  assert (0 < 2 ^ (Z.pos w - 1))%Z as Hhalf by (apply Z.pow_pos_nonneg; lia).
  assert (2 ^ Z.pos w = 2 * 2 ^ (Z.pos w - 1))%Z as Hdbl.
  { rewrite <- Z.pow_succ_r by lia. f_equal. lia. }
  set (half := (2 ^ (Z.pos w - 1))%Z) in *.
  rewrite Hdbl.
  split; [reflexivity|]. split; [lia|]. split; [lia|]. split.
  - split.
    + intros Heq. pose proof (Z.mod_pos_bound (a + b) (2 * half)). lia.
    + intros Hin. by rewrite Z.mod_small.
  - split.
    + intros Heq.
      pose proof (Z.mod_pos_bound (a + b + half) (2 * half)). lia.
    + intros Hin. rewrite Z.mod_small by lia. lia.
Qed.

(** ** Further properties of [echo] *)

Lemma length_append (s t : string) :
  String.length (s +:+ t) = String.length s + String.length t.
Proof.
  induction s as [|c s IH]; [reflexivity|].
  rewrite append_cons. simpl. by rewrite IH.
Qed.

Lemma append_assoc (s t u : string) : (s +:+ t) +:+ u = s +:+ (t +:+ u).
Proof.
  induction s as [|c s IH]; [reflexivity|].
  rewrite !append_cons. by rewrite IH.
Qed.

Lemma slice_from_add (i j : nat) (s : string) :
  Py.slice_from (i + j) s = Py.slice_from j (Py.slice_from i s).
Proof.
  revert s. induction i as [|i IH]; intros s; [reflexivity|].
  destruct s as [|c s]; simpl; [by destruct j|apply IH].
Qed.

Lemma echo_iter_length (n : nat) (m : string) :
  String.length (Nat.iter n echo m) = 6 * n + String.length m.
Proof.
  induction n as [|n IH]; [reflexivity|].
  rewrite Nat.iter_succ, echo_unfold, length_append, IH.
  change (String.length "Echo: ") with 6. lia.
Qed.

Lemma prefix_append (s t : string) : String.prefix s (s +:+ t) = true.
Proof.
  induction s as [|c s IH]; [by destruct t|].
  rewrite append_cons. simpl.
  destruct (Ascii.ascii_dec c c) as [_|Hne]; [exact IH|by destruct Hne].
Qed.

(** X1: the result of [echo] is exactly six characters longer than the
    message. *)
Theorem echo_length (m : string) :
  String.length (echo m) = 6 + String.length m.
Proof. rewrite echo_unfold, length_append. reflexivity. Qed.

(** X2: the result of [echo] always starts with ["Echo: "]; it is never the
    empty string and never the message itself. *)
Theorem echo_prefix_nonempty (m : string) :
  String.prefix "Echo: " (echo m) = true /\ echo m ≠ "" /\ echo m ≠ m.
Proof.
  split; [rewrite echo_unfold; apply prefix_append|].
  split; intros Heq; apply (f_equal String.length) in Heq;
    rewrite echo_length in Heq; simpl in Heq; lia.
Qed.

(** X3: echoing a concatenation is the echo of the first part followed by
    the second part. *)
Theorem echo_append (m1 m2 : string) : echo (m1 +:+ m2) = echo m1 +:+ m2.
Proof. rewrite !echo_unfold. by rewrite append_assoc. Qed.

(** X4: the character at index [6 + i] of [echo m] is the character at
    index [i] of [m] (none when [i] is past the end of [m]). *)
Theorem echo_get_shift (m : string) (i : nat) :
  String.get (6 + i) (echo m) = String.get i m.
Proof. rewrite echo_unfold. reflexivity. Qed.

(** X5: [echo] applied [n] times adds [6 * n] characters, and dropping
    those [6 * n] characters gives the message back. *)
Theorem echo_iter_strip (n : nat) (m : string) :
  String.length (Nat.iter n echo m) = 6 * n + String.length m /\
  Py.slice_from (6 * n) (Nat.iter n echo m) = m.
Proof.
  split; [apply echo_iter_length|].
  induction n as [|n IH]; [reflexivity|].
  rewrite Nat.iter_succ. replace (6 * S n) with (6 + 6 * n) by lia.
  rewrite slice_from_add, echo_unfold.
  rewrite (slice_from_app "Echo: "). exact IH.
Qed.

(** ** Further properties of [add] *)

(** X6: [add] is associative, [0] is also its left identity and [- a] is
    the inverse of [a]. *)
Theorem add_assoc_inverse (a b c : Z) :
  add (add a b) c = add a (add b c) /\ add 0 a = a /\ add a (- a) = 0%Z.
Proof. unfold add. lia. Qed.

(** X7: [add] loses no information in either argument and is strictly
    increasing in each. *)
Theorem add_cancel_monotone (a b c : Z) :
  (add a b = add a c <-> b = c) /\
  (add b a = add c a <-> b = c) /\
  ((add a b < add a c)%Z <-> (b < c)%Z) /\
  ((add b a < add c a)%Z <-> (b < c)%Z).
Proof. unfold add. lia. Qed.

(** X8: summing a list by repeated [add] does not depend on the order of
    the list, and, for any two lists, the sum of their concatenation is
    [add] of the two sums. *)
Theorem add_all_permutation (xs ys : list Z) :
  (xs ≡ₚ ys -> add_all xs = add_all ys) /\
  add_all (xs ++ ys) = add (add_all xs) (add_all ys).
Proof.
  split.
  - intros Hp. unfold add_all.
    induction Hp as [|x l1 l2 _ IH|x y l|l1 l2 l3 _ IH1 _ IH2]; simpl.
    + reflexivity.
    + by rewrite IH.
    + unfold add. lia.
    + by rewrite IH1.
  - unfold add_all. induction xs as [|x xs IH]; simpl; [reflexivity|].
    rewrite IH. unfold add. lia.
Qed.

Lemma add_all_permutation_witness :
  [1; 2; 3]%Z ≡ₚ [3; 1; 2]%Z /\
  add_all [1; 2; 3]%Z = add_all [3; 1; 2]%Z /\
  add_all ([1; 2; 3]%Z ++ [4; 5]%Z)
  = add (add_all [1; 2; 3]%Z) (add_all [4; 5]%Z).
Proof.
  assert ([1; 2; 3]%Z ≡ₚ [3; 1; 2]%Z) as Hp.
  { symmetry. apply (Permutation_cons_append [1; 2]%Z 3%Z). }
  split; [exact Hp|]. split.
  - apply (add_all_permutation [1; 2; 3]%Z [3; 1; 2]%Z). exact Hp.
  - apply (add_all_permutation [1; 2; 3]%Z [4; 5]%Z).
Defined.

(** ** The body of [add] without argument checking *)

(** X9: on two [int] operands the unchecked body returns the integer that
    [add] computes, and whenever it returns an integer both operands were
    [int] or [bool] objects and the result is [add] of their values. *)
Theorem untyped_add_int :
  (forall a b,
      Untyped.add (VInt a) (VInt b) = Untyped.Returned (VInt (add a b))) /\
  (forall x y n,
      Untyped.add x y = Untyped.Returned (VInt n) ->
      exists a b, Untyped.as_int x = Some a /\
                  Untyped.as_int y = Some b /\ n = add a b).
Proof.
  split; [reflexivity|].
  intros x y n Hr. unfold Untyped.add, Untyped.py_add in Hr.
  destruct x as [|bx|nx|sx|lx], y as [|by_|ny|sy|ly];
    simpl in Hr; try discriminate;
    injection Hr as <-; eexists _, _; repeat split.
Qed.

(** X10: the body of [add] checks no types: two [str] operands are
    concatenated and two [list] operands are joined, while a [None]
    operand, or a [str] or [list] with an operand of another kind, raises
    [TypeError]. *)
Theorem untyped_add_no_check :
  (forall s t,
      Untyped.add (VStr s) (VStr t) = Untyped.Returned (VStr (s +:+ t))) /\
  (forall l k,
      Untyped.add (VList l) (VList k) = Untyped.Returned (VList (l ++ k))) /\
  (forall x,
      Untyped.add VNull x = Untyped.TypeError /\
      Untyped.add x VNull = Untyped.TypeError) /\
  (forall s y,
      (forall t, y ≠ VStr t) ->
      Untyped.add (VStr s) y = Untyped.TypeError /\
      Untyped.add y (VStr s) = Untyped.TypeError) /\
  (forall l y,
      (forall k, y ≠ VList k) ->
      Untyped.add (VList l) y = Untyped.TypeError /\
      Untyped.add y (VList l) = Untyped.TypeError).
Proof.
  split; [reflexivity|]. split; [reflexivity|]. split; [|split].
  - intros x. split; [reflexivity|by destruct x].
  - intros s y Hy.
    destruct y as [| | |t|]; try (split; reflexivity). by destruct (Hy t).
  - intros l y Hy.
    destruct y as [| | | |k]; try (split; reflexivity). by destruct (Hy k).
Qed.
